(** * Bedrock Flow integration script: the client, the HTTP routes and the
      test helper of [index.py], embedded as functions over an explicit
      world (clock reads, log lines, outbound calls) with Python exceptions
      as a result constructor. *)

From Stdlib Require Import String List ZArith Bool SpecFloat Lia.
Import ListNotations.
Open Scope string_scope.

Set Warnings "-register-all".

(* Log lines and messages stay as written while proofs simplify. *)
Arguments String.append _ _ : simpl never.

(** ** Python values *)

(** JSON-shaped Python data: what [json.loads] produces and what the dict
    literals of the script hold.  A [dict] keeps its insertion order; a key
    occurs once, and lookup takes the first binding. *)
Inductive json : Type :=
| JNull
| JBool (b : bool)
| JInt (n : Z)
| JFloat (x : spec_float)
| JStr (s : string)
| JList (xs : list json)
| JDict (kvs : list (string * json)).

Definition pydict := list (string * json).

Fixpoint dict_get (key : string) (d : pydict) : option json :=
  match d with
  | [] => None
  | (k, v) :: rest => if String.eqb k key then Some v else dict_get key rest
  end.

(** [key in d] *)
Definition dict_contains (key : string) (d : pydict) : bool :=
  match dict_get key d with
  | Some _ => true
  | None => false
  end.

(** Python truth value of JSON-shaped data, as [not x] and [if x:] use it. *)
Definition py_truthy (v : json) : bool :=
  match v with
  | JNull => false
  | JBool b => b
  | JInt n => negb (Z.eqb n 0)
  | JFloat (S754_zero _) => false
  | JFloat _ => true
  | JStr s => negb (String.eqb s "")
  | JList xs => match xs with [] => false | _ :: _ => true end
  | JDict kvs => match kvs with [] => false | _ :: _ => true end
  end.

(** [type(v).__name__] *)
Definition py_type_name (v : json) : string :=
  match v with
  | JNull => "NoneType"
  | JBool _ => "bool"
  | JInt _ => "int"
  | JFloat _ => "float"
  | JStr _ => "str"
  | JList _ => "list"
  | JDict _ => "dict"
  end.

(** An instance of [Exception]: its class name and [str(e)]. *)
Record exn : Type := Exception { exn_class : string; str : string }.

Inductive outcome (A : Type) : Type :=
| Ok (a : A)
| Raised (e : exn).
Arguments Ok {A} a.
Arguments Raised {A} e.

(** ** The external service *)

(** One event of the response stream: a dict with one entry named after the
    kind of the event. *)
Definition event := pydict.

(** botocore's [EventStream]: an object that only iterates.  It yields
    [events] in order and then either stops or raises [fault]. *)
Record EventStream : Type := mkEventStream {
  events : list event;
  fault : option exn
}.

(** The dict returned by [bedrock_agent.invoke_flow], read through
    [response.get('responseStream')]: [None] when the entry is missing. *)
Record FlowResponse : Type := mkFlowResponse {
  responseStream : option EventStream
}.

(** [if response_body:] -- [None] is false; an [EventStream] has neither
    [__bool__] nor [__len__], so the object is true whatever it yields. *)
Definition stream_truthy (response_body : option EventStream) : bool :=
  match response_body with
  | None => false
  | Some _ => true
  end.

(** ** World and environment *)

Inductive level : Type := INFO | ERROR.

Record World : Type := mkWorld {
  clock_reads : nat;               (* calls of datetime.now() so far *)
  log : list (level * string);     (* lines given to the module logger *)
  sent : list json                 (* request bodies given to the service *)
}.

Record Env : Type := mkEnv {
  (* datetime.now().isoformat() at the n-th reading of the clock *)
  isoformat_now : nat -> string;
  (* the remote flow service behind the boto3 client, which may answer
     according to the requests it has seen *)
  bedrock_agent : list json -> json -> outcome FlowResponse
}.

Definition M (A : Type) : Type := Env -> World -> outcome A * World.

Definition ret {A} (a : A) : M A := fun _ w => (Ok a, w).

Definition raise {A} (e : exn) : M A := fun _ w => (Raised e, w).

Definition bind {A B} (m : M A) (k : A -> M B) : M B :=
  fun env w =>
    match m env w with
    | (Ok a, w') => k a env w'
    | (Raised e, w') => (Raised e, w')
    end.

(** [try: body  except Exception as e: handler e] *)
Definition try_except {A} (body : M A) (handler : exn -> M A) : M A :=
  fun env w =>
    match body env w with
    | (Ok a, w') => (Ok a, w')
    | (Raised e, w') => handler e env w'
    end.

Notation "x <- m ;; k" := (bind m (fun x => k))
  (at level 61, m at next level, right associativity).
Notation "m ;; k" := (bind m (fun _ => k))
  (at level 61, right associativity).

(** The three ways the script changes the world. *)
Definition tick (w : World) : World :=
  mkWorld (S (clock_reads w)) (log w) (sent w).

Definition logged (l : level) (msg : string) (w : World) : World :=
  mkWorld (clock_reads w) (log w ++ [(l, msg)]) (sent w).

Definition sending (request_body : json) (w : World) : World :=
  mkWorld (clock_reads w) (log w) (sent w ++ [request_body]).

Definition datetime_now_isoformat : M string :=
  fun env w => (Ok (isoformat_now env (clock_reads w)), tick w).

Definition logger_info (msg : string) : M unit :=
  fun _ w => (Ok tt, logged INFO msg w).

Definition logger_error (msg : string) : M unit :=
  fun _ w => (Ok tt, logged ERROR msg w).

(** The call [self.bedrock_agent.invoke_flow] with the request body as its
    keyword arguments. *)
Definition bedrock_agent_invoke_flow (request_body : json) : M FlowResponse :=
  fun env w => (bedrock_agent env (sent w) request_body, sending request_body w).

(** [d[key]] *)
Definition dict_getitem (d : pydict) (key : string) : M json :=
  match dict_get key d with
  | Some v => ret v
  | None => raise (Exception "KeyError" ("'" ++ key ++ "'"))
  end.

Record BedrockFlowConfig : Type := mkConfig {
  flow_id : string;
  flow_alias_id : string;
  region : string;
  api_gateway_url : option string
}.

(** ** class BedrockFlowClient *)
Module BedrockFlowClient.

(** The body of [for event in response_body:], with [result] threaded. *)
Fixpoint for_event (evs : list event) (result : list json) : M (list json) :=
  match evs with
  | [] => ret result
  | event :: rest =>
      if dict_contains "flowOutputEvent" event then
        output <- dict_getitem event "flowOutputEvent" ;;
        for_event rest (result ++ [output])
      else
        for_event rest result
  end.

(** The whole loop over [response_body]: the events, then the end of the
    stream or its fault.  [None] cannot be iterated. *)
Definition for_event_in (response_body : option EventStream) : M (list json) :=
  match response_body with
  | Some stream =>
      result <- for_event (events stream) [] ;;
      match fault stream with
      | Some e => raise e
      | None => ret result
      end
  | None => raise (Exception "TypeError" "'NoneType' object is not iterable")
  end.

Definition _process_flow_response (response : FlowResponse) : M json :=
  try_except
    (let response_body := responseStream response in
     if stream_truthy response_body then
       result <- for_event_in response_body ;;
       now <- datetime_now_isoformat ;;
       ret (JDict [("success", JBool true);
                   ("data", JList result);
                   ("timestamp", JStr now)])
     else
       now <- datetime_now_isoformat ;;
       ret (JDict [("success", JBool false);
                   ("error", JStr "No response from flow");
                   ("timestamp", JStr now)]))
    (fun e =>
       logger_error ("Error processing flow response: " ++ str e) ;;
       now <- datetime_now_isoformat ;;
       ret (JDict [("success", JBool false);
                   ("error", JStr (str e));
                   ("timestamp", JStr now)])).

Definition request_body (config : BedrockFlowConfig) (input_data : json) : json :=
  JDict [("flowIdentifier", JStr (flow_id config));
         ("flowAliasIdentifier", JStr (flow_alias_id config));
         ("inputs",
          JList [JDict [("content", input_data);
                        ("nodeName", JStr "FlowInputNode");
                        ("nodeOutputName", JStr "document")]])].

Definition invoke_flow (config : BedrockFlowConfig) (input_data : json) : M json :=
  try_except
    (logger_info ("Invoking Bedrock Flow " ++ flow_id config) ;;
     response <- bedrock_agent_invoke_flow (request_body config input_data) ;;
     result <- _process_flow_response response ;;
     logger_info "Flow invocation successful" ;;
     ret result)
    (fun e =>
       logger_error ("Error invoking Bedrock Flow: " ++ str e) ;;
       raise e).

End BedrockFlowClient.

(** ** The HTTP side *)

(** What the handler sees of the Flask request: [request.get_json()] either
    raises (no JSON content type, a body that does not parse) or returns
    the parsed body. *)
Record Request : Type := mkRequest {
  get_json : outcome json
}.

Record HttpResponse : Type := mkHttpResponse {
  body : json;
  status : nat
}.

(** [jsonify(obj)] as a return value: status 200. *)
Definition jsonify (obj : json) : HttpResponse := mkHttpResponse obj 200.

(** [return response, code] *)
Definition with_status (response : HttpResponse) (code : nat) : HttpResponse :=
  mkHttpResponse (body response) code.

(** [data.get(key, default)]: only a dict has the method. *)
Definition py_get (data : json) (key : string) (default : json) : M json :=
  match data with
  | JDict d =>
      match dict_get key d with
      | Some v => ret v
      | None => ret default
      end
  | _ =>
      raise (Exception "AttributeError"
               ("'" ++ py_type_name data ++ "' object has no attribute 'get'"))
  end.

Definition request_get_json (request : Request) : M json :=
  fun _ w => (get_json request, w).

(** ** class BedrockFlowAPI: the routes, with [flow_client] given by its
    configuration *)
Module BedrockFlowAPI.

(** POST /invoke-flow *)
Definition invoke_flow (flow_client : BedrockFlowConfig) (request : Request)
  : M HttpResponse :=
  try_except
    (data <- request_get_json request ;;
     user_input <- py_get data "input" (JStr "") ;;
     if negb (py_truthy user_input) then
       ret (with_status
              (jsonify (JDict [("success", JBool false);
                               ("error", JStr "No input provided")]))
              400)
     else
       now <- datetime_now_isoformat ;;
       let flow_input := JDict [("query", user_input);
                                ("timestamp", JStr now)] in
       result <- BedrockFlowClient.invoke_flow flow_client flow_input ;;
       ret (jsonify result))
    (fun e =>
       logger_error ("Error in invoke_flow endpoint: " ++ str e) ;;
       ret (with_status
              (jsonify (JDict [("success", JBool false);
                               ("error", JStr (str e))]))
              500)).

(** GET /health *)
Definition health_check : M HttpResponse :=
  now <- datetime_now_isoformat ;;
  ret (jsonify (JDict [("status", JStr "healthy");
                       ("timestamp", JStr now)])).

End BedrockFlowAPI.

(** ** class BedrockFlowIntegration *)
Module BedrockFlowIntegration.


Definition test_flow (client : BedrockFlowConfig) (test_input : string) : M json :=
  try_except
    (logger_info ("Testing flow with input: " ++ test_input) ;;
     now <- datetime_now_isoformat ;;
     let flow_input := JDict [("query", JStr test_input);
                              ("timestamp", JStr now)] in
     result <- BedrockFlowClient.invoke_flow client flow_input ;;
     ret result)
    (fun e =>
       logger_error ("Error testing flow: " ++ str e) ;;
       ret (JDict [("success", JBool false);
                   ("error", JStr (str e))])).

End BedrockFlowIntegration.

(** ** Vocabulary of the specification *)

(** The envelope of a successful invocation. *)
Definition success_envelope (data : list json) (timestamp : string) : json :=
  JDict [("success", JBool true);
         ("data", JList data);
         ("timestamp", JStr timestamp)].

(** The envelope of a failed invocation. *)
Definition failure_envelope (error : string) (timestamp : string) : json :=
  JDict [("success", JBool false);
         ("error", JStr error);
         ("timestamp", JStr timestamp)].

(** The failure body without a timestamp. *)
Definition bare_failure (error : string) : json :=
  JDict [("success", JBool false); ("error", JStr error)].

(** The payloads carried under the flow-output marker, in stream order. *)
Fixpoint flow_outputs (evs : list event) : list json :=
  match evs with
  | [] => []
  | ev :: rest =>
      match dict_get "flowOutputEvent" ev with
      | Some output => output :: flow_outputs rest
      | None => flow_outputs rest
      end
  end.

(** [arrival evs outs]: the stream [evs] delivers the flow outputs [outs],
    one per tagged event and in this order, with untagged events anywhere
    in between. *)
Inductive arrival : list event -> list json -> Prop :=
| arrival_end : arrival [] []
| arrival_untagged ev evs outs :
    dict_get "flowOutputEvent" ev = None ->
    arrival evs outs ->
    arrival (ev :: evs) outs
| arrival_tagged ev e evs outs :
    dict_get "flowOutputEvent" ev = Some e ->
    arrival evs outs ->
    arrival (ev :: evs) (e :: outs).

Definition has_key (key : string) (v : json) : bool :=
  match v with
  | JDict d => dict_contains key d
  | _ => false
  end.

(** [success] is a boolean, and exactly the field that goes with it is
    there: [data] with true, [error] with false. *)
Definition envelope_consistent (v : json) : bool :=
  match v with
  | JDict d =>
      match dict_get "success" d with
      | Some (JBool true) => dict_contains "data" d && negb (dict_contains "error" d)
      | Some (JBool false) => dict_contains "error" d && negb (dict_contains "data" d)
      | _ => false
      end
  | _ => false
  end.

Definition has_timestamp (v : json) : bool := has_key "timestamp" v.

(** The payload both entry points build for the client. *)
Definition flow_input_of (query : json) (timestamp : string) : json :=
  JDict [("query", query); ("timestamp", JStr timestamp)].

(** The value the POST handler reads as [user_input]: [data.get('input', '')]. *)
Definition user_input_of (d : pydict) : json :=
  match dict_get "input" d with
  | Some v => v
  | None => JStr ""
  end.

(** The [content] field of the single input of an invocation request. *)
Definition content_of (request_body : json) : option json :=
  match request_body with
  | JDict d =>
      match dict_get "inputs" d with
      | Some (JList [JDict input]) => dict_get "content" input
      | _ => None
      end
  | _ => None
  end.

(** The world after the client has run to its normal end on [input_data]. *)
Definition invoked (config : BedrockFlowConfig) (input_data : json)
    (w : World) : World :=
  sending (BedrockFlowClient.request_body config input_data)
    (logged INFO ("Invoking Bedrock Flow " ++ flow_id config) w).

(** ** Sample runs *)

Definition sample_config : BedrockFlowConfig :=
  mkConfig "YOUR_FLOW_ID" "YOUR_FLOW_ALIAS_ID" "us-east-1" None.

Definition sample_clock (n : nat) : string :=
  match n with
  | 0 => "2025-01-01T12:00:00.000100"
  | 1 => "2025-01-01T12:00:00.000200"
  | _ => "2025-01-01T12:00:00.000300"
  end.

Definition start : World := mkWorld 0 [] [].

Definition hello : string := "Hello, this is a test message".

Definition sample_payload : json := flow_input_of (JStr hello) "2025-01-01T11:59:59".

Definition output_event (document : string) : event :=
  [("flowOutputEvent",
    JDict [("content", JDict [("document", JStr document)]);
           ("nodeName", JStr "FlowOutputNode");
           ("nodeType", JStr "FlowOutputNode")])].

Definition output_of (document : string) : json :=
  JDict [("content", JDict [("document", JStr document)]);
         ("nodeName", JStr "FlowOutputNode");
         ("nodeType", JStr "FlowOutputNode")].

Definition completion_event : event :=
  [("flowCompletionEvent", JDict [("completionReason", JStr "SUCCESS")])].

Definition connection_error : exn :=
  Exception "EndpointConnectionError" "Could not connect to the endpoint URL".

Definition stream_error : exn :=
  Exception "EventStreamError" "An error occurred (internalServerException)".

(** A service that cannot be reached. *)
Definition service_down : Env := mkEnv sample_clock (fun _ _ => Raised connection_error).

(** A service that always gives the same answer. *)
Definition service_with (response : FlowResponse) : Env :=
  mkEnv sample_clock (fun _ _ => Ok response).

Definition no_stream : FlowResponse := mkFlowResponse None.

Definition empty_stream : FlowResponse :=
  mkFlowResponse (Some (mkEventStream [] None)).

Definition two_outputs : FlowResponse :=
  mkFlowResponse
    (Some (mkEventStream
             [output_event "first"; completion_event; output_event "second"]
             None)).

Definition only_completion : FlowResponse :=
  mkFlowResponse (Some (mkEventStream [completion_event] None)).

Definition broken_stream : FlowResponse :=
  mkFlowResponse (Some (mkEventStream [output_event "first"] (Some stream_error))).

Definition post (parsed : json) : Request := mkRequest (Ok parsed).

(** ** The configuration of [main] *)






(** The events of a stream that carry the flow-output marker. *)
Definition tagged_count (evs : list event) : nat :=
  length (filter (dict_contains "flowOutputEvent") evs).

(** The envelope the client makes of an answer of the service, given the
    clock reading it takes. *)
Definition envelope_of (response : FlowResponse) (timestamp : string) : json :=
  match responseStream response with
  | None => failure_envelope "No response from flow" timestamp
  | Some (mkEventStream evs None) => success_envelope (flow_outputs evs) timestamp
  | Some (mkEventStream evs (Some e)) => failure_envelope (str e) timestamp
  end.

(** The lines the client logs after the call has returned. *)
Definition lines_after_call (response : FlowResponse) : list (level * string) :=
  match responseStream response with
  | Some (mkEventStream _ (Some e)) =>
      [(ERROR, "Error processing flow response: " ++ str e);
       (INFO, "Flow invocation successful")]
  | _ => [(INFO, "Flow invocation successful")]
  end.

(** Unfolds the POST handler down to the service and client calls. *)
Ltac run_route :=
  unfold BedrockFlowAPI.invoke_flow, try_except, bind, request_get_json,
    py_get, ret, raise, logger_error, datetime_now_isoformat.

(** ** The loop and the response normaliser *)

Lemma for_event_collects (evs : list event) :
  forall (result : list json) (env : Env) (w : World),
    BedrockFlowClient.for_event evs result env w
    = (Ok (result ++ flow_outputs evs)%list, w).
Proof.
  induction evs as [| ev rest IH]; intros result env w; simpl.
  - now rewrite app_nil_r.
  - unfold dict_contains, dict_getitem.
    destruct (dict_get "flowOutputEvent" ev) as [output |] eqn:Hget.
    + unfold bind, ret at 1. rewrite IH. now rewrite <- app_assoc.
    + apply IH.
Qed.

Lemma arrival_flow_outputs (evs : list event) (outs : list json) :
  arrival evs outs -> flow_outputs evs = outs.
Proof.
  induction 1 as [| ev evs outs Hev _ IH | ev e evs outs Hev _ IH]; simpl.
  - reflexivity.
  - now rewrite Hev.
  - rewrite Hev. now f_equal.
Qed.

Lemma flow_outputs_arrival (evs : list event) :
  arrival evs (flow_outputs evs).
Proof.
  induction evs as [| ev rest IH]; simpl.
  - constructor.
  - destruct (dict_get "flowOutputEvent" ev) eqn:Hev.
    + now apply arrival_tagged.
    + now apply arrival_untagged.
Qed.

Lemma process_absent (response : FlowResponse) (env : Env) (w : World) :
  responseStream response = None ->
  BedrockFlowClient._process_flow_response response env w
  = (Ok (failure_envelope "No response from flow"
           (isoformat_now env (clock_reads w))),
     tick w).
Proof.
  intros H. unfold BedrockFlowClient._process_flow_response, try_except.
  now rewrite H.
Qed.

Lemma process_stream (response : FlowResponse) (evs : list event)
    (env : Env) (w : World) :
  responseStream response = Some (mkEventStream evs None) ->
  BedrockFlowClient._process_flow_response response env w
  = (Ok (success_envelope (flow_outputs evs)
           (isoformat_now env (clock_reads w))),
     tick w).
Proof.
  intros H. unfold BedrockFlowClient._process_flow_response, try_except.
  rewrite H. simpl. unfold bind at 1. unfold bind at 1.
  now rewrite for_event_collects.
Qed.

Lemma process_fault (response : FlowResponse) (evs : list event) (e : exn)
    (env : Env) (w : World) :
  responseStream response = Some (mkEventStream evs (Some e)) ->
  BedrockFlowClient._process_flow_response response env w
  = (Ok (failure_envelope (str e) (isoformat_now env (clock_reads w))),
     tick (logged ERROR ("Error processing flow response: " ++ str e) w)).
Proof.
  intros H. unfold BedrockFlowClient._process_flow_response, try_except.
  rewrite H. simpl. unfold bind at 1. unfold bind at 1.
  now rewrite for_event_collects.
Qed.

(** ** The client *)

(** An error raised by the service call is logged and raised again. *)
Lemma invoke_flow_raises (config : BedrockFlowConfig) (input_data : json)
    (e : exn) (env : Env) (w : World) :
  bedrock_agent env (sent w) (BedrockFlowClient.request_body config input_data)
  = Raised e ->
  BedrockFlowClient.invoke_flow config input_data env w
  = (Raised e,
     logged ERROR ("Error invoking Bedrock Flow: " ++ str e)
       (invoked config input_data w)).
Proof.
  intros H.
  unfold BedrockFlowClient.invoke_flow, try_except, bind,
    bedrock_agent_invoke_flow, logger_info.
  simpl. now rewrite H.
Qed.

(** When the service answers, the client returns what the normaliser makes
    of the answer, after one more log line. *)
Lemma invoke_flow_returns (config : BedrockFlowConfig) (input_data : json)
    (response : FlowResponse) (result : json) (env : Env) (w w' : World) :
  bedrock_agent env (sent w) (BedrockFlowClient.request_body config input_data)
  = Ok response ->
  BedrockFlowClient._process_flow_response response env
    (invoked config input_data w) = (Ok result, w') ->
  BedrockFlowClient.invoke_flow config input_data env w
  = (Ok result, logged INFO "Flow invocation successful" w').
Proof.
  intros Hcall Hproc.
  unfold BedrockFlowClient.invoke_flow, try_except, bind,
    bedrock_agent_invoke_flow, logger_info.
  simpl. rewrite Hcall.
  unfold invoked in Hproc. now rewrite Hproc.
Qed.

(** The normaliser never raises. *)
Lemma process_flow_response_total (response : FlowResponse) (env : Env)
    (w : World) :
  exists result w',
    BedrockFlowClient._process_flow_response response env w = (Ok result, w')
    /\ sent w' = sent w
    /\ envelope_consistent result = true
    /\ has_timestamp result = true.
Proof.
  destruct response as [[[evs [e |]] |]].
  - eexists; eexists; split; [now apply (process_fault _ evs e)|].
    now repeat split.
  - eexists; eexists; split; [now apply (process_stream _ evs)|].
    now repeat split.
  - eexists; eexists; split; [now apply process_absent|].
    now repeat split.
Qed.

(** What the client does, case by case on the service. *)
Lemma invoke_flow_cases (config : BedrockFlowConfig) (input_data : json)
    (env : Env) (w : World) :
  (exists e,
      bedrock_agent env (sent w)
        (BedrockFlowClient.request_body config input_data) = Raised e
      /\ BedrockFlowClient.invoke_flow config input_data env w
         = (Raised e,
            logged ERROR ("Error invoking Bedrock Flow: " ++ str e)
              (invoked config input_data w)))
  \/ (exists result w',
         BedrockFlowClient.invoke_flow config input_data env w = (Ok result, w')
         /\ sent w' = (sent w ++ [BedrockFlowClient.request_body config input_data])%list
         /\ envelope_consistent result = true
         /\ has_timestamp result = true).
Proof.
  destruct (bedrock_agent env (sent w)
              (BedrockFlowClient.request_body config input_data))
    as [response | e] eqn:Hcall.
  - right.
    destruct (process_flow_response_total response env
                (invoked config input_data w))
      as (result & w' & Hproc & Hsent & Hcons & Hts).
    exists result, (logged INFO "Flow invocation successful" w').
    split; [now apply (invoke_flow_returns _ _ response)|].
    simpl. rewrite Hsent. now repeat split.
  - left. exists e. split; [reflexivity|]. now apply invoke_flow_raises.
Qed.

Lemma flow_outputs_untagged (evs : list event) :
  (forall ev, In ev evs -> dict_contains "flowOutputEvent" ev = false) ->
  flow_outputs evs = [].
Proof.
  induction evs as [| ev rest IH]; intros Hall; simpl; [reflexivity|].
  assert (Hev : dict_contains "flowOutputEvent" ev = false)
    by (apply Hall; now left).
  unfold dict_contains in Hev.
  destruct (dict_get "flowOutputEvent" ev); [discriminate|].
  apply IH. intros ev' Hin. apply Hall. now right.
Qed.

(** ** Claims about the client *)

(** C1, as stated, at a service that cannot be reached: the error of the
    call leaves [invoke_flow] as a raised exception, not as the failure
    envelope. *)
Lemma C1_counterexample :
  bedrock_agent service_down (sent start)
    (BedrockFlowClient.request_body sample_config sample_payload)
  = Raised connection_error
  /\ fst (BedrockFlowClient.invoke_flow sample_config sample_payload
            service_down start)
     = Raised connection_error
  /\ forall envelope : json,
       fst (BedrockFlowClient.invoke_flow sample_config sample_payload
              service_down start)
       <> Ok envelope.
Proof.
  split; [reflexivity|]. split; [reflexivity|].
  intros envelope. vm_compute. discriminate.
Qed.

(** C1, amended: for every payload, an error raised while the stream is
    consumed comes back as the envelope [{success: false, error: str(e),
    timestamp: now}] with a log line; an error raised by the call to the
    service itself is logged and raised again to the caller of
    [invoke_flow]. *)
Theorem C1_errors_of_invoke_flow (config : BedrockFlowConfig)
    (input_data : json) (env : Env) (w : World) :
  (forall evs e,
      bedrock_agent env (sent w)
        (BedrockFlowClient.request_body config input_data)
      = Ok (mkFlowResponse (Some (mkEventStream evs (Some e)))) ->
      BedrockFlowClient.invoke_flow config input_data env w
      = (Ok (failure_envelope (str e) (isoformat_now env (clock_reads w))),
         logged INFO "Flow invocation successful"
           (tick (logged ERROR ("Error processing flow response: " ++ str e)
                    (invoked config input_data w)))))
  /\ (forall e,
         bedrock_agent env (sent w)
           (BedrockFlowClient.request_body config input_data)
         = Raised e ->
         BedrockFlowClient.invoke_flow config input_data env w
         = (Raised e,
            logged ERROR ("Error invoking Bedrock Flow: " ++ str e)
              (invoked config input_data w))).
Proof.
  split.
  - intros evs e Hcall.
    apply (invoke_flow_returns _ _ _ _ _ _ _ Hcall).
    exact (process_fault (mkFlowResponse (Some (mkEventStream evs (Some e))))
             evs e env (invoked config input_data w) eq_refl).
  - intros e Hcall. now apply invoke_flow_raises.
Qed.

Lemma C1_errors_of_invoke_flow_witness :
  BedrockFlowClient.invoke_flow sample_config sample_payload
    (service_with broken_stream) start
  = (Ok (failure_envelope (str stream_error) (sample_clock 0)),
     logged INFO "Flow invocation successful"
       (tick (logged ERROR
                ("Error processing flow response: " ++ str stream_error)
                (invoked sample_config sample_payload start))))
  /\ BedrockFlowClient.invoke_flow sample_config sample_payload
       service_down start
     = (Raised connection_error,
        logged ERROR ("Error invoking Bedrock Flow: " ++ str connection_error)
          (invoked sample_config sample_payload start)).
Proof.
  split.
  - apply (proj1 (C1_errors_of_invoke_flow sample_config sample_payload
                    (service_with broken_stream) start)
             [output_event "first"] stream_error).
    reflexivity.
  - apply (proj2 (C1_errors_of_invoke_flow sample_config sample_payload
                    service_down start)
             connection_error).
    reflexivity.
Defined.

(** C3, as stated, at a stream that is there and yields nothing: the
    client answers with success and an empty [data], not with "No response
    from flow". *)
Lemma C3_counterexample :
  responseStream empty_stream = Some (mkEventStream [] None)
  /\ fst (BedrockFlowClient.invoke_flow sample_config sample_payload
            (service_with empty_stream) start)
     = Ok (success_envelope [] (sample_clock 0))
  /\ fst (BedrockFlowClient.invoke_flow sample_config sample_payload
            (service_with empty_stream) start)
     <> Ok (failure_envelope "No response from flow" (sample_clock 0)).
Proof.
  split; [reflexivity|]. split; [reflexivity|].
  vm_compute. discriminate.
Qed.

(** C3, amended: for every response of the service in which the stream is
    absent, [invoke_flow] returns [{success: false, error: "No response
    from flow", timestamp: now}]; a stream that is present and yields no
    event is not such a case and gives [{success: true, data: [],
    timestamp: now}]. *)
Theorem C3_absent_stream (config : BedrockFlowConfig) (input_data : json)
    (response : FlowResponse) (env : Env) (w : World) :
  bedrock_agent env (sent w)
    (BedrockFlowClient.request_body config input_data) = Ok response ->
  (responseStream response = None ->
   BedrockFlowClient.invoke_flow config input_data env w
   = (Ok (failure_envelope "No response from flow"
            (isoformat_now env (clock_reads w))),
      logged INFO "Flow invocation successful"
        (tick (invoked config input_data w))))
  /\ (responseStream response = Some (mkEventStream [] None) ->
      BedrockFlowClient.invoke_flow config input_data env w
      = (Ok (success_envelope [] (isoformat_now env (clock_reads w))),
         logged INFO "Flow invocation successful"
           (tick (invoked config input_data w)))).
Proof.
  intros Hcall. split.
  - intros Habsent.
    apply (invoke_flow_returns _ _ _ _ _ _ _ Hcall).
    exact (process_absent response env (invoked config input_data w) Habsent).
  - intros Hempty.
    apply (invoke_flow_returns _ _ _ _ _ _ _ Hcall).
    exact (process_stream response [] env (invoked config input_data w) Hempty).
Qed.

Lemma C3_absent_stream_witness :
  BedrockFlowClient.invoke_flow sample_config sample_payload
    (service_with no_stream) start
  = (Ok (failure_envelope "No response from flow" (sample_clock 0)),
     logged INFO "Flow invocation successful"
       (tick (invoked sample_config sample_payload start)))
  /\ BedrockFlowClient.invoke_flow sample_config sample_payload
       (service_with empty_stream) start
     = (Ok (success_envelope [] (sample_clock 0)),
        logged INFO "Flow invocation successful"
          (tick (invoked sample_config sample_payload start))).
Proof.
  split.
  - apply (proj1 (C3_absent_stream sample_config sample_payload no_stream
                    (service_with no_stream) start eq_refl)).
    reflexivity.
  - apply (proj2 (C3_absent_stream sample_config sample_payload empty_stream
                    (service_with empty_stream) start eq_refl)).
    reflexivity.
Defined.

(** C4: for every response of the service in which the stream is present
    and ends without an error, [invoke_flow] returns [{success: true, data:
    <the collected flow outputs>, timestamp: now}]; when no event of the
    stream carries the flow-output marker, [data] is the empty list. *)
Theorem C4_present_stream_succeeds (config : BedrockFlowConfig)
    (input_data : json) (response : FlowResponse) (stream : EventStream)
    (env : Env) (w : World) :
  bedrock_agent env (sent w)
    (BedrockFlowClient.request_body config input_data) = Ok response ->
  responseStream response = Some stream ->
  fault stream = None ->
  BedrockFlowClient.invoke_flow config input_data env w
  = (Ok (success_envelope (flow_outputs (events stream))
           (isoformat_now env (clock_reads w))),
     logged INFO "Flow invocation successful"
       (tick (invoked config input_data w)))
  /\ ((forall ev, In ev (events stream) ->
                  dict_contains "flowOutputEvent" ev = false) ->
      fst (BedrockFlowClient.invoke_flow config input_data env w)
      = Ok (success_envelope [] (isoformat_now env (clock_reads w)))).
Proof.
  intros Hcall Hstream Hfault.
  destruct stream as [evs flt]. simpl in Hfault. subst flt.
  assert (Hrun :
    BedrockFlowClient.invoke_flow config input_data env w
    = (Ok (success_envelope (flow_outputs evs)
             (isoformat_now env (clock_reads w))),
       logged INFO "Flow invocation successful"
         (tick (invoked config input_data w)))).
  { apply (invoke_flow_returns _ _ _ _ _ _ _ Hcall).
    exact (process_stream response evs env (invoked config input_data w)
             Hstream). }
  split; [exact Hrun|].
  intros Huntagged. rewrite Hrun. simpl.
  now rewrite (flow_outputs_untagged evs Huntagged).
Qed.

Lemma C4_present_stream_succeeds_witness :
  fst (BedrockFlowClient.invoke_flow sample_config sample_payload
         (service_with only_completion) start)
  = Ok (success_envelope [] (sample_clock 0)).
Proof.
  refine (proj2 (C4_present_stream_succeeds sample_config sample_payload
                   only_completion (mkEventStream [completion_event] None)
                   (service_with only_completion) start
                   eq_refl eq_refl eq_refl) _).
  intros ev [Hev | []]. now subst ev.
Defined.

(** C5: for every stream that delivers the flow outputs e1..eN, each under
    the flow-output marker of its event, in this order and with untagged
    events anywhere in between, the [data] of the envelope that
    [invoke_flow] returns is [e1; ...; eN]: arrival order is kept and
    nothing else is collected. *)
Theorem C5_data_keeps_arrival_order (config : BedrockFlowConfig)
    (input_data : json) (response : FlowResponse) (evs : list event)
    (outs : list json) (env : Env) (w : World) :
  bedrock_agent env (sent w)
    (BedrockFlowClient.request_body config input_data) = Ok response ->
  responseStream response = Some (mkEventStream evs None) ->
  arrival evs outs ->
  exists envelope w',
    BedrockFlowClient.invoke_flow config input_data env w = (Ok envelope, w')
    /\ envelope = success_envelope outs (isoformat_now env (clock_reads w))
    /\ match envelope with
       | JDict d => dict_get "data" d = Some (JList outs)
       | _ => False
       end.
Proof.
  intros Hcall Hstream Harrival.
  exists (success_envelope outs (isoformat_now env (clock_reads w))).
  exists (logged INFO "Flow invocation successful"
            (tick (invoked config input_data w))).
  split; [| split; reflexivity].
  apply (invoke_flow_returns _ _ _ _ _ _ _ Hcall).
  rewrite <- (arrival_flow_outputs evs outs Harrival).
  exact (process_stream response evs env (invoked config input_data w) Hstream).
Qed.

Lemma C5_data_keeps_arrival_order_witness :
  exists envelope w',
    BedrockFlowClient.invoke_flow sample_config sample_payload
      (service_with two_outputs) start = (Ok envelope, w')
    /\ envelope = success_envelope [output_of "first"; output_of "second"]
                    (sample_clock 0)
    /\ match envelope with
       | JDict d =>
           dict_get "data" d
           = Some (JList [output_of "first"; output_of "second"])
       | _ => False
       end.
Proof.
  apply (C5_data_keeps_arrival_order sample_config sample_payload two_outputs
           [output_event "first"; completion_event; output_event "second"]
           [output_of "first"; output_of "second"]
           (service_with two_outputs) start eq_refl eq_refl).
  apply arrival_tagged; [reflexivity|].
  apply arrival_untagged; [reflexivity|].
  apply arrival_tagged; [reflexivity|].
  apply arrival_end.
Defined.

(** ** The routes *)

(** [request.get_json()] raises: the handler answers 500. *)
Lemma route_get_json_raises (flow_client : BedrockFlowConfig)
    (request : Request) (e : exn) (env : Env) (w : World) :
  get_json request = Raised e ->
  BedrockFlowAPI.invoke_flow flow_client request env w
  = (Ok (mkHttpResponse (bare_failure (str e)) 500),
     logged ERROR ("Error in invoke_flow endpoint: " ++ str e) w).
Proof.
  intros H. run_route. now rewrite H.
Qed.

(** The parsed body is not a dict: [data.get] raises, the handler answers
    500. *)
Lemma route_body_not_dict (flow_client : BedrockFlowConfig)
    (request : Request) (data : json) (env : Env) (w : World) :
  get_json request = Ok data ->
  (forall d, data <> JDict d) ->
  BedrockFlowAPI.invoke_flow flow_client request env w
  = (Ok (mkHttpResponse
           (bare_failure
              ("'" ++ py_type_name data ++ "' object has no attribute 'get'"))
           500),
     logged ERROR
       ("Error in invoke_flow endpoint: "
        ++ "'" ++ py_type_name data ++ "' object has no attribute 'get'") w).
Proof.
  intros H Hnot. run_route. rewrite H.
  destruct data; try reflexivity.
  now destruct (Hnot kvs).
Qed.

Lemma route_falsy_input (flow_client : BedrockFlowConfig)
    (request : Request) (d : pydict) (env : Env) (w : World) :
  get_json request = Ok (JDict d) ->
  py_truthy (user_input_of d) = false ->
  BedrockFlowAPI.invoke_flow flow_client request env w
  = (Ok (mkHttpResponse (bare_failure "No input provided") 400), w).
Proof.
  intros H Hfalsy. run_route. rewrite H. unfold user_input_of in Hfalsy.
  destruct (dict_get "input" d) as [v |]; now rewrite Hfalsy.
Qed.

(** A truthy input: the handler reads the clock, calls the client and
    relays its envelope, or answers 500 when the client raises. *)
Lemma route_truthy_input (flow_client : BedrockFlowConfig)
    (request : Request) (d : pydict) (env : Env) (w : World) :
  get_json request = Ok (JDict d) ->
  py_truthy (user_input_of d) = true ->
  BedrockFlowAPI.invoke_flow flow_client request env w
  = match BedrockFlowClient.invoke_flow flow_client
            (flow_input_of (user_input_of d)
               (isoformat_now env (clock_reads w)))
            env (tick w) with
    | (Ok result, w') => (Ok (mkHttpResponse result 200), w')
    | (Raised e, w') =>
        (Ok (mkHttpResponse (bare_failure (str e)) 500),
         logged ERROR ("Error in invoke_flow endpoint: " ++ str e) w')
    end.
Proof.
  intros H Htruthy. run_route. rewrite H. unfold user_input_of in *.
  destruct (dict_get "input" d) as [v |]; rewrite Htruthy; simpl;
    unfold flow_input_of;
    now destruct (BedrockFlowClient.invoke_flow _ _ env (tick w)) as [[r | e] w'].
Qed.

Lemma test_flow_run (client : BedrockFlowConfig) (test_input : string)
    (env : Env) (w : World) :
  BedrockFlowIntegration.test_flow client test_input env w
  = match BedrockFlowClient.invoke_flow client
            (flow_input_of (JStr test_input)
               (isoformat_now env (clock_reads w)))
            env
            (tick (logged INFO ("Testing flow with input: " ++ test_input) w))
    with
    | (Ok result, w') => (Ok result, w')
    | (Raised e, w') =>
        (Ok (bare_failure (str e)),
         logged ERROR ("Error testing flow: " ++ str e) w')
    end.
Proof.
  unfold BedrockFlowIntegration.test_flow, try_except, bind, logger_info,
    datetime_now_isoformat, ret, logger_error, flow_input_of.
  simpl.
  now destruct (BedrockFlowClient.invoke_flow _ _ env _) as [[r | e] w'].
Qed.

(** ** Claims about the HTTP routes and the test helper *)

(** C6: a POST whose parsed body has no [input], or has the empty string as
    [input], is answered with status 400 and the body [{success: false,
    error: "No input provided"}]; the world is left as it was: nothing is
    sent to the service, nothing is logged and the clock is not read, so
    the client is not invoked. *)
Theorem C6_missing_or_empty_input (flow_client : BedrockFlowConfig)
    (request : Request) (d : pydict) (env : Env) (w : World) :
  get_json request = Ok (JDict d) ->
  dict_get "input" d = None \/ dict_get "input" d = Some (JStr "") ->
  BedrockFlowAPI.invoke_flow flow_client request env w
  = (Ok (mkHttpResponse
           (JDict [("success", JBool false);
                   ("error", JStr "No input provided")])
           400),
     w).
Proof.
  intros Hjson Hinput.
  apply (route_falsy_input flow_client request d env w Hjson).
  unfold user_input_of. now destruct Hinput as [-> | ->].
Qed.

Lemma C6_missing_or_empty_input_witness :
  BedrockFlowAPI.invoke_flow sample_config
    (post (JDict [("input", JStr "")])) (service_with two_outputs) start
  = (Ok (mkHttpResponse
           (JDict [("success", JBool false);
                   ("error", JStr "No input provided")])
           400),
     start).
Proof.
  apply (C6_missing_or_empty_input sample_config
           (post (JDict [("input", JStr "")])) [("input", JStr "")]
           (service_with two_outputs) start eq_refl).
  right. reflexivity.
Defined.

(** C7: GET /health always returns status 200 with the body [{status:
    "healthy", timestamp: now}].  The handler only reads the clock: it
    sends nothing to the service, logs nothing, cannot raise, and its
    answer does not depend on how the service behaves. *)
Theorem C7_health_check (env : Env) (w : World) :
  BedrockFlowAPI.health_check env w
  = (Ok (mkHttpResponse
           (JDict [("status", JStr "healthy");
                   ("timestamp", JStr (isoformat_now env (clock_reads w)))])
           200),
     tick w)
  /\ sent (snd (BedrockFlowAPI.health_check env w)) = sent w
  /\ forall service,
       BedrockFlowAPI.health_check (mkEnv (isoformat_now env) service) w
       = BedrockFlowAPI.health_check env w.
Proof.
  repeat split.
Qed.

(** C9: a POST whose body is absent or does not parse ([get_json] raises
    or returns [None]), or parses to something that is not a JSON object,
    is answered with status 500 and [{success: false, error: <message>}],
    not with the 400 of a missing input: the handler calls [data.get]
    before it looks at the input.  Only the log changes. *)
Theorem C9_unparseable_body_is_500 (flow_client : BedrockFlowConfig)
    (request : Request) (env : Env) (w : World) :
  (forall d, get_json request <> Ok (JDict d)) ->
  exists message,
    BedrockFlowAPI.invoke_flow flow_client request env w
    = (Ok (mkHttpResponse
             (JDict [("success", JBool false); ("error", JStr message)])
             500),
       logged ERROR ("Error in invoke_flow endpoint: " ++ message) w)
    /\ match get_json request with
       | Raised e => message = str e
       | Ok data =>
           message
           = "'" ++ py_type_name data ++ "' object has no attribute 'get'"
       end.
Proof.
  intros Hnot.
  destruct (get_json request) as [data | e] eqn:Hjson.
  - exists ("'" ++ py_type_name data ++ "' object has no attribute 'get'").
    split; [| reflexivity].
    apply (route_body_not_dict flow_client request data env w Hjson).
    intros d ->. now apply (Hnot d).
  - exists (str e). split; [| reflexivity].
    now apply route_get_json_raises.
Qed.

Lemma C9_unparseable_body_is_500_witness :
  exists message,
    BedrockFlowAPI.invoke_flow sample_config (post JNull)
      (service_with two_outputs) start
    = (Ok (mkHttpResponse
             (JDict [("success", JBool false); ("error", JStr message)])
             500),
       logged ERROR ("Error in invoke_flow endpoint: " ++ message) start)
    /\ message = "'NoneType' object has no attribute 'get'".
Proof.
  apply (C9_unparseable_body_is_500 sample_config (post JNull)
           (service_with two_outputs) start).
  intros d. discriminate.
Defined.

(** The falsy JSON values, one by one. *)
Lemma py_falsy_values (v : json) :
  py_truthy v = false <->
  v = JNull \/ v = JBool false \/ v = JInt 0
  \/ (exists sign, v = JFloat (S754_zero sign))
  \/ v = JStr "" \/ v = JList [] \/ v = JDict [].
Proof.
  split.
  - destruct v as [| b | n | x | s | xs | kvs]; simpl; intros H.
    + now left.
    + subst b. right. now left.
    + apply negb_false_iff, Z.eqb_eq in H. subst n. right. right. now left.
    + destruct x; try discriminate. right. right. right. left. now exists s.
    + apply negb_false_iff, String.eqb_eq in H. subst s.
      right. right. right. right. now left.
    + destruct xs; [| discriminate]. do 5 right. now left.
    + destruct kvs; [| discriminate]. now do 6 right.
  - intros [-> | [-> | [-> | [[sign ->] | [-> | [-> | ->]]]]]]; reflexivity.
Qed.

(** C10: the check of POST /invoke-flow on [input] is Python truthiness.
    The falsy values are exactly null, false, the number zero, the empty
    string, the empty array and the empty object, and each of them is
    answered with the 400 "No input provided" with nothing sent; every
    truthy value, of whatever JSON type, is accepted: the service receives
    one request whose [content] is [{query: <that value>, timestamp:
    now}]. *)
Theorem C10_input_check_is_truthiness (flow_client : BedrockFlowConfig)
    (request : Request) (d : pydict) (v : json) (env : Env) (w : World) :
  get_json request = Ok (JDict d) ->
  dict_get "input" d = Some v ->
  (py_truthy v = false <->
   v = JNull \/ v = JBool false \/ v = JInt 0
   \/ (exists sign, v = JFloat (S754_zero sign))
   \/ v = JStr "" \/ v = JList [] \/ v = JDict [])
  /\ (py_truthy v = false ->
      BedrockFlowAPI.invoke_flow flow_client request env w
      = (Ok (mkHttpResponse (bare_failure "No input provided") 400), w))
  /\ (py_truthy v = true ->
      exists response w',
        BedrockFlowAPI.invoke_flow flow_client request env w
        = (Ok response, w')
        /\ status response <> 400
        /\ sent w'
           = (sent w
              ++ [BedrockFlowClient.request_body flow_client
                    (JDict [("query", v);
                            ("timestamp",
                             JStr (isoformat_now env (clock_reads w)))])])%list).
Proof.
  intros Hjson Hinput.
  assert (Hv : user_input_of d = v) by (unfold user_input_of; now rewrite Hinput).
  split; [apply py_falsy_values|]. split.
  - intros Hfalsy. apply (route_falsy_input flow_client request d env w Hjson).
    now rewrite Hv.
  - intros Htruthy.
    rewrite (route_truthy_input flow_client request d env w Hjson)
      by now rewrite Hv.
    rewrite Hv.
    destruct (invoke_flow_cases flow_client
                (flow_input_of v (isoformat_now env (clock_reads w)))
                env (tick w))
      as [(e & _ & ->) | (result & w' & -> & Hsent & _)].
    + eexists; eexists. split; [reflexivity|]. split; [discriminate|].
      reflexivity.
    + eexists; eexists. split; [reflexivity|]. split; [discriminate|].
      exact Hsent.
Qed.

Lemma C10_input_check_is_truthiness_witness :
  BedrockFlowAPI.invoke_flow sample_config
    (post (JDict [("input", JInt 0)])) (service_with two_outputs) start
  = (Ok (mkHttpResponse (bare_failure "No input provided") 400), start)
  /\ exists response w',
       BedrockFlowAPI.invoke_flow sample_config
         (post (JDict [("input", JList [JInt 7])]))
         (service_with two_outputs) start
       = (Ok response, w')
       /\ status response <> 400
       /\ sent w'
          = [BedrockFlowClient.request_body sample_config
               (JDict [("query", JList [JInt 7]);
                       ("timestamp", JStr (sample_clock 0))])].
Proof.
  split.
  - apply (proj1 (proj2 (C10_input_check_is_truthiness sample_config
                           (post (JDict [("input", JInt 0)]))
                           [("input", JInt 0)] (JInt 0)
                           (service_with two_outputs) start
                           eq_refl eq_refl))).
    reflexivity.
  - apply (proj2 (proj2 (C10_input_check_is_truthiness sample_config
                           (post (JDict [("input", JList [JInt 7])]))
                           [("input", JList [JInt 7])] (JList [JInt 7])
                           (service_with two_outputs) start
                           eq_refl eq_refl))).
    reflexivity.
Defined.

(** C8: for every text, [test_flow] hands the client the payload [{query:
    text, timestamp: now}], and the client sends it unchanged as the
    [content] of its request; POST /invoke-flow with that text as [input]
    builds and sends the very same request whenever it lets the text
    through (the text is not empty). *)
Theorem C8_test_flow_builds_the_route_payload (client : BedrockFlowConfig)
    (text : string) (env : Env) (w : World) :
  let payload := flow_input_of (JStr text) (isoformat_now env (clock_reads w)) in
  let sent_request := BedrockFlowClient.request_body client payload in
  content_of sent_request = Some payload
  /\ sent (snd (BedrockFlowIntegration.test_flow client text env w))
     = (sent w ++ [sent_request])%list
  /\ forall (request : Request) (d : pydict),
       get_json request = Ok (JDict d) ->
       dict_get "input" d = Some (JStr text) ->
       text <> "" ->
       sent (snd (BedrockFlowAPI.invoke_flow client request env w))
       = (sent w ++ [sent_request])%list.
Proof.
  intros payload sent_request.
  split; [reflexivity|]. split.
  - rewrite test_flow_run.
    destruct (invoke_flow_cases client payload env
                (tick (logged INFO ("Testing flow with input: " ++ text) w)))
      as [(e & _ & Hrun) | (result & w' & Hrun & Hsent & _)];
      fold payload; rewrite Hrun; [reflexivity | exact Hsent].
  - intros request d Hjson Hinput Htext.
    assert (Hv : user_input_of d = JStr text)
      by (unfold user_input_of; now rewrite Hinput).
    rewrite (route_truthy_input client request d env w Hjson).
    + rewrite Hv. fold payload.
      destruct (invoke_flow_cases client payload env (tick w))
        as [(e & _ & Hrun) | (result & w' & Hrun & Hsent & _)];
        rewrite Hrun; [reflexivity | exact Hsent].
    + rewrite Hv. simpl. apply negb_true_iff, String.eqb_neq. exact Htext.
Qed.

Lemma C8_test_flow_builds_the_route_payload_witness :
  let payload := flow_input_of (JStr hello) (sample_clock 0) in
  let sent_request := BedrockFlowClient.request_body sample_config payload in
  content_of sent_request = Some payload
  /\ sent (snd (BedrockFlowIntegration.test_flow sample_config hello
                  (service_with two_outputs) start))
     = [sent_request]
  /\ sent (snd (BedrockFlowAPI.invoke_flow sample_config
                  (post (JDict [("input", JStr hello)]))
                  (service_with two_outputs) start))
     = [sent_request].
Proof.
  intros payload sent_request.
  destruct (C8_test_flow_builds_the_route_payload sample_config hello
              (service_with two_outputs) start) as (Hcontent & Htest & Hroute).
  split; [exact Hcontent|]. split; [exact Htest|].
  apply (Hroute (post (JDict [("input", JStr hello)])) [("input", JStr hello)]
           eq_refl eq_refl).
  discriminate.
Defined.

(** ** The envelope invariant *)

(** C2, as stated, at a POST without [input] and at [test_flow] against a
    service that cannot be reached: both bodies are consistent failures,
    and neither has a [timestamp]. *)
Lemma C2_counterexample :
  BedrockFlowAPI.invoke_flow sample_config (post (JDict []))
    (service_with two_outputs) start
  = (Ok (mkHttpResponse (bare_failure "No input provided") 400), start)
  /\ has_timestamp (bare_failure "No input provided") = false
  /\ fst (BedrockFlowIntegration.test_flow sample_config hello
            service_down start)
     = Ok (bare_failure (str connection_error))
  /\ has_timestamp (bare_failure (str connection_error)) = false.
Proof.
  repeat split.
Qed.

(** C2, amended: every envelope returned to a caller -- by [invoke_flow]
    of the client, by POST /invoke-flow and by [test_flow], which both
    always return one -- has [success] and exactly the field that goes
    with it, [data] or [error].  The [timestamp] is there on every
    envelope that comes from the client (all of its own, the 200 answers
    of the route, the relayed results of [test_flow]) and is missing from
    the failure bodies that the route (400, 500) and [test_flow] build
    themselves. *)
Theorem C2_envelope_invariant (config : BedrockFlowConfig) (env : Env)
    (w : World) :
  (forall input_data result w',
      BedrockFlowClient.invoke_flow config input_data env w = (Ok result, w') ->
      envelope_consistent result = true /\ has_timestamp result = true)
  /\ (forall request,
         exists response w',
           BedrockFlowAPI.invoke_flow config request env w = (Ok response, w')
           /\ envelope_consistent (body response) = true
           /\ (status response = 200 /\ has_timestamp (body response) = true
               \/ (status response = 400 \/ status response = 500)
                  /\ has_timestamp (body response) = false))
  /\ (forall test_input,
         exists result w',
           BedrockFlowIntegration.test_flow config test_input env w
           = (Ok result, w')
           /\ envelope_consistent result = true
           /\ has_timestamp result
              = match fst (BedrockFlowClient.invoke_flow config
                             (flow_input_of (JStr test_input)
                                (isoformat_now env (clock_reads w)))
                             env
                             (tick (logged INFO
                                      ("Testing flow with input: " ++ test_input)
                                      w))) with
                | Ok _ => true
                | Raised _ => false
                end).
Proof.
  split; [| split].
  - intros input_data result w' Hrun.
    destruct (invoke_flow_cases config input_data env w)
      as [(e & _ & Hraise) | (result' & w'' & Hret & _ & Hcons & Hts)].
    + rewrite Hraise in Hrun. discriminate.
    + rewrite Hret in Hrun. injection Hrun as <- _. now split.
  - intros request.
    destruct (get_json request) as [data | e] eqn:Hjson.
    + destruct data as [| b | n | x | s | xs | d];
        try (eexists; eexists; split;
             [apply (route_body_not_dict config request _ env w Hjson);
              intros d'; discriminate
             | split; [reflexivity | right; split; [now right | reflexivity]]]).
      destruct (py_truthy (user_input_of d)) eqn:Htruthy.
      * rewrite (route_truthy_input config request d env w Hjson Htruthy).
        destruct (invoke_flow_cases config
                    (flow_input_of (user_input_of d)
                       (isoformat_now env (clock_reads w)))
                    env (tick w))
          as [(e & _ & ->) | (result & w' & -> & _ & Hcons & Hts)].
        -- eexists; eexists. split; [reflexivity|].
           split; [reflexivity | right; split; [now right | reflexivity]].
        -- eexists; eexists. split; [reflexivity|].
           split; [exact Hcons | left; now split].
      * eexists; eexists. split;
          [apply (route_falsy_input config request d env w Hjson Htruthy)|].
        split; [reflexivity | right; split; [now left | reflexivity]].
    + eexists; eexists. split;
        [apply (route_get_json_raises config request e env w Hjson)|].
      split; [reflexivity | right; split; [now right | reflexivity]].
  - intros test_input. rewrite test_flow_run.
    destruct (invoke_flow_cases config
                (flow_input_of (JStr test_input)
                   (isoformat_now env (clock_reads w)))
                env
                (tick (logged INFO ("Testing flow with input: " ++ test_input) w)))
      as [(e & _ & ->) | (result & w' & -> & _ & Hcons & Hts)].
    + eexists; eexists. split; [reflexivity|]. now split.
    + eexists; eexists. split; [reflexivity|]. now split.
Qed.

Lemma C2_envelope_invariant_witness :
  envelope_consistent
    (success_envelope [output_of "first"; output_of "second"] (sample_clock 0))
  = true
  /\ has_timestamp
       (success_envelope [output_of "first"; output_of "second"]
          (sample_clock 0))
     = true.
Proof.
  apply (proj1 (C2_envelope_invariant sample_config (service_with two_outputs)
                  start)
           sample_payload _
           (logged INFO "Flow invocation successful"
              (tick (invoked sample_config sample_payload start)))).
  reflexivity.
Defined.

(** ** Further properties of the client *)

(** The client on an answer of the service, with the world it leaves. *)
Lemma invoke_flow_answered (config : BedrockFlowConfig) (input_data : json)
    (response : FlowResponse) (env : Env) (w : World) :
  bedrock_agent env (sent w)
    (BedrockFlowClient.request_body config input_data) = Ok response ->
  BedrockFlowClient.invoke_flow config input_data env w
  = (Ok (envelope_of response (isoformat_now env (clock_reads w))),
     mkWorld (S (clock_reads w))
       (log w ++ (INFO, "Invoking Bedrock Flow " ++ flow_id config)
              :: lines_after_call response)
       (sent w ++ [BedrockFlowClient.request_body config input_data])).
Proof.
  intros Hcall.
  unfold envelope_of, lines_after_call.
  destruct response as [[[evs [e |]] |]]; simpl.
  - rewrite (invoke_flow_returns _ _ _ _ _ _ _ Hcall
               (process_fault (mkFlowResponse (Some (mkEventStream evs (Some e))))
                  evs e env (invoked config input_data w) eq_refl)).
    unfold logged, tick, invoked, sending. simpl.
    now rewrite <- !app_assoc.
  - rewrite (invoke_flow_returns _ _ _ _ _ _ _ Hcall
               (process_stream (mkFlowResponse (Some (mkEventStream evs None)))
                  evs env (invoked config input_data w) eq_refl)).
    unfold logged, tick, invoked, sending. simpl.
    now rewrite <- !app_assoc.
  - rewrite (invoke_flow_returns _ _ _ _ _ _ _ Hcall
               (process_absent (mkFlowResponse None) env
                  (invoked config input_data w) eq_refl)).
    unfold logged, tick, invoked, sending. simpl.
    now rewrite <- !app_assoc.
Qed.

Lemma flow_outputs_app (evs1 evs2 : list event) :
  flow_outputs (evs1 ++ evs2) = (flow_outputs evs1 ++ flow_outputs evs2)%list.
Proof.
  induction evs1 as [| ev rest IH]; simpl; [reflexivity|].
  destruct (dict_get "flowOutputEvent" ev); [simpl; now f_equal | exact IH].
Qed.

Lemma flow_outputs_length (evs : list event) :
  length (flow_outputs evs) = tagged_count evs.
Proof.
  unfold tagged_count.
  induction evs as [| ev rest IH]; simpl; [reflexivity|].
  unfold dict_contains.
  destruct (dict_get "flowOutputEvent" ev); simpl; now rewrite IH.
Qed.

Lemma flow_outputs_In (evs : list event) (output : json) :
  In output (flow_outputs evs) <->
  exists ev, In ev evs /\ dict_get "flowOutputEvent" ev = Some output.
Proof.
  induction evs as [| ev rest IH]; simpl.
  - split; [intros [] | intros (ev & [] & _)].
  - destruct (dict_get "flowOutputEvent" ev) as [o |] eqn:Hev; simpl.
    + split.
      * intros [-> | Hin].
        -- exists ev. split; [now left | exact Hev].
        -- apply IH in Hin as (ev' & Hin' & Hget). exists ev'. split; [now right | exact Hget].
      * intros (ev' & [<- | Hin'] & Hget).
        -- left. congruence.
        -- right. apply IH. now exists ev'.
    + split.
      * intros Hin. apply IH in Hin as (ev' & Hin' & Hget).
        exists ev'. split; [now right | exact Hget].
      * intros (ev' & [<- | Hin'] & Hget); [congruence|].
        apply IH. now exists ev'.
Qed.

(** X1: whatever the service does -- raise or answer -- one run of
    [invoke_flow] gives it exactly one request, the one built from the
    payload: nothing is retried and nothing is skipped. *)
Theorem X1_one_request_per_invocation (config : BedrockFlowConfig)
    (input_data : json) (env : Env) (w : World) :
  sent (snd (BedrockFlowClient.invoke_flow config input_data env w))
  = (sent w ++ [BedrockFlowClient.request_body config input_data])%list.
Proof.
  destruct (bedrock_agent env (sent w)
              (BedrockFlowClient.request_body config input_data))
    as [response | e] eqn:Hcall.
  - now rewrite (invoke_flow_answered config input_data response env w Hcall).
  - now rewrite (invoke_flow_raises config input_data e env w Hcall).
Qed.

(** X2: once the service has answered, the client logs "Flow invocation
    successful" as its last line whatever the envelope says: also when the
    stream is absent, and also right after the error line of a stream
    that failed; the line of a failed call, "Error invoking Bedrock
    Flow", is then never logged. *)
Theorem X2_success_line_after_any_answer (config : BedrockFlowConfig)
    (input_data : json) (response : FlowResponse) (env : Env) (w : World) :
  bedrock_agent env (sent w)
    (BedrockFlowClient.request_body config input_data) = Ok response ->
  let w' := snd (BedrockFlowClient.invoke_flow config input_data env w) in
  log w'
  = (log w
     ++ [(INFO, ("Invoking Bedrock Flow " ++ flow_id config)%string)]
     ++ match responseStream response with
        | Some (mkEventStream _ (Some e)) =>
            [(ERROR, ("Error processing flow response: " ++ str e)%string)]
        | _ => []
        end
     ++ [(INFO, "Flow invocation successful")])%list
  /\ (responseStream response = None
      \/ (exists evs e,
             responseStream response = Some (mkEventStream evs (Some e))) ->
      exists d,
        fst (BedrockFlowClient.invoke_flow config input_data env w)
        = Ok (JDict d)
        /\ dict_get "success" d = Some (JBool false)).
Proof.
  intros Hcall w'. subst w'.
  rewrite (invoke_flow_answered config input_data response env w Hcall).
  simpl. split.
  - unfold lines_after_call.
    now destruct (responseStream response) as [[evs [e |]] |].
  - intros Hfailed. unfold envelope_of.
    destruct Hfailed as [-> | (evs & e & ->)];
      (eexists; split; [reflexivity | reflexivity]).
Qed.

Lemma X2_success_line_after_any_answer_witness :
  log (snd (BedrockFlowClient.invoke_flow sample_config sample_payload
              (service_with broken_stream) start))
  = [(INFO, "Invoking Bedrock Flow YOUR_FLOW_ID");
     (ERROR, "Error processing flow response: An error occurred (internalServerException)");
     (INFO, "Flow invocation successful")]
  /\ exists d,
       fst (BedrockFlowClient.invoke_flow sample_config sample_payload
              (service_with broken_stream) start)
       = Ok (JDict d)
       /\ dict_get "success" d = Some (JBool false).
Proof.
  destruct (X2_success_line_after_any_answer sample_config sample_payload
              broken_stream (service_with broken_stream) start eq_refl)
    as [Hlog Hfailed].
  split; [exact Hlog|].
  apply Hfailed. right. exists [output_event "first"], stream_error. reflexivity.
Defined.

(** X3: when the stream ends without an error, [data] holds exactly the
    values that the events of the stream carry under the flow-output
    marker -- each value there comes from an event, each tagged event has
    its value there -- and has one entry per tagged event, so never more
    entries than the stream has events. *)
Theorem X3_data_is_sound_and_complete (config : BedrockFlowConfig)
    (input_data : json) (response : FlowResponse) (evs : list event)
    (env : Env) (w : World) :
  bedrock_agent env (sent w)
    (BedrockFlowClient.request_body config input_data) = Ok response ->
  responseStream response = Some (mkEventStream evs None) ->
  exists data,
    fst (BedrockFlowClient.invoke_flow config input_data env w)
    = Ok (JDict [("success", JBool true);
                 ("data", JList data);
                 ("timestamp", JStr (isoformat_now env (clock_reads w)))])
    /\ (forall output,
           In output data <->
           exists ev, In ev evs /\ dict_get "flowOutputEvent" ev = Some output)
    /\ length data = tagged_count evs
    /\ length data <= length evs.
Proof.
  intros Hcall Hstream. exists (flow_outputs evs).
  rewrite (invoke_flow_answered config input_data response env w Hcall).
  unfold envelope_of. rewrite Hstream. simpl.
  split; [reflexivity|]. split; [apply flow_outputs_In|].
  rewrite flow_outputs_length. split; [reflexivity|].
  unfold tagged_count. apply filter_length_le.
Qed.

Lemma X3_data_is_sound_and_complete_witness :
  exists data,
    fst (BedrockFlowClient.invoke_flow sample_config sample_payload
           (service_with two_outputs) start)
    = Ok (JDict [("success", JBool true);
                 ("data", JList data);
                 ("timestamp", JStr (sample_clock 0))])
    /\ (forall output,
           In output data <->
           exists ev,
             In ev [output_event "first"; completion_event; output_event "second"]
             /\ dict_get "flowOutputEvent" ev = Some output)
    /\ length data = 2
    /\ length data <= 3.
Proof.
  exact (X3_data_is_sound_and_complete sample_config sample_payload two_outputs
           [output_event "first"; completion_event; output_event "second"]
           (service_with two_outputs) start eq_refl eq_refl).
Defined.

(** X4: collecting composes over the stream: for a stream that delivers
    the events of [evs1] and then those of [evs2] without an error, [data]
    is what [evs1] alone gives followed by what [evs2] alone gives. *)
Theorem X4_data_of_a_stream_in_two_parts (config : BedrockFlowConfig)
    (input_data : json) (response : FlowResponse) (evs1 evs2 : list event)
    (env : Env) (w : World) :
  bedrock_agent env (sent w)
    (BedrockFlowClient.request_body config input_data) = Ok response ->
  responseStream response = Some (mkEventStream (evs1 ++ evs2) None) ->
  fst (BedrockFlowClient.invoke_flow config input_data env w)
  = Ok (success_envelope (flow_outputs evs1 ++ flow_outputs evs2)
          (isoformat_now env (clock_reads w)))
  /\ forall result env' w',
       BedrockFlowClient.for_event (evs1 ++ evs2) result env' w'
       = (result' <- BedrockFlowClient.for_event evs1 result ;;
          BedrockFlowClient.for_event evs2 result') env' w'.
Proof.
  intros Hcall Hstream. split.
  - rewrite (invoke_flow_answered config input_data response env w Hcall).
    unfold envelope_of. rewrite Hstream. simpl. now rewrite flow_outputs_app.
  - intros result env' w'. unfold bind.
    rewrite !for_event_collects, flow_outputs_app. now rewrite app_assoc.
Qed.

Lemma X4_data_of_a_stream_in_two_parts_witness :
  fst (BedrockFlowClient.invoke_flow sample_config sample_payload
         (service_with two_outputs) start)
  = Ok (success_envelope
          (flow_outputs [output_event "first"; completion_event]
           ++ flow_outputs [output_event "second"])
          (sample_clock 0)).
Proof.
  exact (proj1 (X4_data_of_a_stream_in_two_parts sample_config sample_payload
                  two_outputs [output_event "first"; completion_event]
                  [output_event "second"] (service_with two_outputs) start
                  eq_refl eq_refl)).
Defined.

(** ** Further properties of the routes, the test helper and [main] *)

(** The world after a call to the service that raised [e]. *)
Lemma invoke_flow_raises_world (config : BedrockFlowConfig) (input_data : json)
    (e : exn) (env : Env) (w : World) :
  bedrock_agent env (sent w) (BedrockFlowClient.request_body config input_data)
  = Raised e ->
  BedrockFlowClient.invoke_flow config input_data env w
  = (Raised e,
     mkWorld (clock_reads w)
       (log w ++ [(INFO, "Invoking Bedrock Flow " ++ flow_id config);
                  (ERROR, "Error invoking Bedrock Flow: " ++ str e)])
       (sent w ++ [BedrockFlowClient.request_body config input_data])).
Proof.
  intros Hcall. rewrite (invoke_flow_raises config input_data e env w Hcall).
  unfold logged, invoked, sending. simpl. now rewrite <- app_assoc.
Qed.

(** X5: when POST /invoke-flow accepts the input and the service answers,
    the status is 200 whatever the answer holds, and the body is the
    envelope of the client: the failure envelopes of an absent stream and
    of a stream that raised are sent with 200 as well.  The timestamp of
    the body is the second reading of the clock; the first one is in the
    payload. *)
Theorem X5_route_relays_every_answer_with_200 (flow_client : BedrockFlowConfig)
    (request : Request) (d : pydict) (response : FlowResponse)
    (env : Env) (w : World) :
  get_json request = Ok (JDict d) ->
  py_truthy (user_input_of d) = true ->
  bedrock_agent env (sent w)
    (BedrockFlowClient.request_body flow_client
       (JDict [("query", user_input_of d);
               ("timestamp", JStr (isoformat_now env (clock_reads w)))]))
  = Ok response ->
  let now2 := isoformat_now env (S (clock_reads w)) in
  fst (BedrockFlowAPI.invoke_flow flow_client request env w)
  = Ok (mkHttpResponse
          match responseStream response with
          | None =>
              JDict [("success", JBool false);
                     ("error", JStr "No response from flow");
                     ("timestamp", JStr now2)]
          | Some (mkEventStream evs None) =>
              JDict [("success", JBool true);
                     ("data", JList (flow_outputs evs));
                     ("timestamp", JStr now2)]
          | Some (mkEventStream evs (Some e)) =>
              JDict [("success", JBool false);
                     ("error", JStr (str e));
                     ("timestamp", JStr now2)]
          end
          200)
  /\ clock_reads (snd (BedrockFlowAPI.invoke_flow flow_client request env w))
     = 2 + clock_reads w.
Proof.
  intros Hjson Htruthy Hcall now2. subst now2.
  rewrite (route_truthy_input flow_client request d env w Hjson Htruthy).
  unfold flow_input_of.
  rewrite (invoke_flow_answered flow_client _ response env (tick w) Hcall).
  simpl. split; [| reflexivity].
  unfold envelope_of.
  now destruct (responseStream response) as [[evs [e |]] |].
Qed.

Lemma X5_route_relays_every_answer_with_200_witness :
  fst (BedrockFlowAPI.invoke_flow sample_config
         (post (JDict [("input", JStr hello)])) (service_with no_stream) start)
  = Ok (mkHttpResponse
          (JDict [("success", JBool false);
                  ("error", JStr "No response from flow");
                  ("timestamp", JStr (sample_clock 1))])
          200)
  /\ clock_reads (snd (BedrockFlowAPI.invoke_flow sample_config
                         (post (JDict [("input", JStr hello)]))
                         (service_with no_stream) start))
     = 2.
Proof.
  exact (X5_route_relays_every_answer_with_200 sample_config
           (post (JDict [("input", JStr hello)])) [("input", JStr hello)]
           no_stream (service_with no_stream) start eq_refl eq_refl eq_refl).
Defined.

(** X6: when POST /invoke-flow accepts the input and the call to the
    service raises, the answer is 500 with [{success: false, error:
    str(e)}]; the request was given to the service once, the clock was
    read once, and the error is logged twice, by the client and by the
    handler. *)
Theorem X6_route_on_a_failed_call (flow_client : BedrockFlowConfig)
    (request : Request) (d : pydict) (e : exn) (env : Env) (w : World) :
  get_json request = Ok (JDict d) ->
  py_truthy (user_input_of d) = true ->
  let flow_input :=
    JDict [("query", user_input_of d);
           ("timestamp", JStr (isoformat_now env (clock_reads w)))] in
  bedrock_agent env (sent w)
    (BedrockFlowClient.request_body flow_client flow_input) = Raised e ->
  BedrockFlowAPI.invoke_flow flow_client request env w
  = (Ok (mkHttpResponse
           (JDict [("success", JBool false); ("error", JStr (str e))])
           500),
     mkWorld (S (clock_reads w))
       (log w
        ++ [(INFO, "Invoking Bedrock Flow " ++ flow_id flow_client);
            (ERROR, "Error invoking Bedrock Flow: " ++ str e);
            (ERROR, "Error in invoke_flow endpoint: " ++ str e)])
       (sent w ++ [BedrockFlowClient.request_body flow_client flow_input])).
Proof.
  intros Hjson Htruthy flow_input Hcall. subst flow_input.
  rewrite (route_truthy_input flow_client request d env w Hjson Htruthy).
  unfold flow_input_of.
  rewrite (invoke_flow_raises_world flow_client _ e env (tick w) Hcall).
  unfold logged, bare_failure. simpl. now rewrite <- app_assoc.
Qed.

Lemma X6_route_on_a_failed_call_witness :
  BedrockFlowAPI.invoke_flow sample_config
    (post (JDict [("input", JStr hello)])) service_down start
  = (Ok (mkHttpResponse
           (JDict [("success", JBool false);
                   ("error", JStr "Could not connect to the endpoint URL")])
           500),
     mkWorld 1
       [(INFO, "Invoking Bedrock Flow YOUR_FLOW_ID");
        (ERROR, "Error invoking Bedrock Flow: Could not connect to the endpoint URL");
        (ERROR, "Error in invoke_flow endpoint: Could not connect to the endpoint URL")]
       [BedrockFlowClient.request_body sample_config
          (JDict [("query", JStr hello);
                  ("timestamp", JStr (sample_clock 0))])]).
Proof.
  exact (X6_route_on_a_failed_call sample_config
           (post (JDict [("input", JStr hello)])) [("input", JStr hello)]
           connection_error service_down start eq_refl eq_refl eq_refl).
Defined.

(** X7: for a text that POST /invoke-flow accepts, [test_flow] returns
    exactly the body the route answers with, from the same world and
    against the same service -- the envelope of the client when the
    service answers (status 200), the bare failure when its call raises
    (status 500). *)
Theorem X7_test_flow_returns_the_route_body (client : BedrockFlowConfig)
    (text : string) (request : Request) (d : pydict) (env : Env) (w : World) :
  get_json request = Ok (JDict d) ->
  dict_get "input" d = Some (JStr text) ->
  text <> "" ->
  exists result,
    fst (BedrockFlowIntegration.test_flow client text env w) = Ok result
    /\ fst (BedrockFlowAPI.invoke_flow client request env w)
       = Ok (mkHttpResponse result
               match bedrock_agent env (sent w)
                       (BedrockFlowClient.request_body client
                          (JDict [("query", JStr text);
                                  ("timestamp",
                                   JStr (isoformat_now env (clock_reads w)))]))
               with
               | Ok _ => 200
               | Raised _ => 500
               end).
Proof.
  intros Hjson Hinput Htext.
  assert (Hv : user_input_of d = JStr text)
    by (unfold user_input_of; now rewrite Hinput).
  assert (Htruthy : py_truthy (user_input_of d) = true).
  { rewrite Hv. simpl. apply negb_true_iff, String.eqb_neq. exact Htext. }
  rewrite test_flow_run.
  rewrite (route_truthy_input client request d env w Hjson Htruthy), Hv.
  unfold flow_input_of.
  destruct (bedrock_agent env (sent w) _) as [response | e] eqn:Hcall.
  - rewrite (invoke_flow_answered client _ response env (tick w) Hcall).
    rewrite (invoke_flow_answered client _ response env
               (tick (logged INFO ("Testing flow with input: " ++ text) w))
               Hcall).
    now eexists.
  - rewrite (invoke_flow_raises_world client _ e env (tick w) Hcall).
    rewrite (invoke_flow_raises_world client _ e env
               (tick (logged INFO ("Testing flow with input: " ++ text) w))
               Hcall).
    now eexists.
Qed.

Lemma X7_test_flow_returns_the_route_body_witness :
  exists result,
    fst (BedrockFlowIntegration.test_flow sample_config hello
           (service_with two_outputs) start) = Ok result
    /\ fst (BedrockFlowAPI.invoke_flow sample_config
              (post (JDict [("input", JStr hello)]))
              (service_with two_outputs) start)
       = Ok (mkHttpResponse result 200).
Proof.
  apply (X7_test_flow_returns_the_route_body sample_config hello
           (post (JDict [("input", JStr hello)])) [("input", JStr hello)]
           (service_with two_outputs) start eq_refl eq_refl).
  discriminate.
Defined.

(** X8: POST /invoke-flow always answers, and its status follows one
    table: 500 when the body does not parse to a JSON object; 400 when the
    object's [input] is missing or falsy; otherwise 200 when the service
    answers and 500 when its call raises.  So 400 is returned exactly for a
    JSON object with a missing or falsy [input]. *)
Theorem X8_status_table (flow_client : BedrockFlowConfig) (request : Request)
    (env : Env) (w : World) :
  exists response w',
    BedrockFlowAPI.invoke_flow flow_client request env w = (Ok response, w')
    /\ status response
       = match get_json request with
         | Ok (JDict d) =>
             if py_truthy (user_input_of d) then
               match bedrock_agent env (sent w)
                       (BedrockFlowClient.request_body flow_client
                          (JDict [("query", user_input_of d);
                                  ("timestamp",
                                   JStr (isoformat_now env (clock_reads w)))]))
               with
               | Ok _ => 200
               | Raised _ => 500
               end
             else 400
         | _ => 500
         end
    /\ (status response = 400 <->
        exists d, get_json request = Ok (JDict d)
                  /\ py_truthy (user_input_of d) = false).
Proof.
  destruct (get_json request) as [data | e] eqn:Hjson.
  - destruct data as [| b | n | x | s | xs | d];
      try (eexists; eexists; split;
           [apply (route_body_not_dict flow_client request _ env w Hjson);
            intros d'; discriminate
           | split; [reflexivity
                    | split; [discriminate | intros (d' & [=] & _)]]]).
    destruct (py_truthy (user_input_of d)) eqn:Htruthy.
    + rewrite (route_truthy_input flow_client request d env w Hjson Htruthy).
      unfold flow_input_of.
      destruct (bedrock_agent env (sent w) _) as [response | e] eqn:Hcall.
      * rewrite (invoke_flow_answered flow_client _ response env (tick w) Hcall).
        eexists; eexists. split; [reflexivity|]. split; [reflexivity|].
        split; [discriminate|]. intros (d' & [= <-] & Hfalsy). congruence.
      * rewrite (invoke_flow_raises_world flow_client _ e env (tick w) Hcall).
        eexists; eexists. split; [reflexivity|]. split; [reflexivity|].
        split; [discriminate|]. intros (d' & [= <-] & Hfalsy). congruence.
    + rewrite (route_falsy_input flow_client request d env w Hjson Htruthy).
      eexists; eexists. split; [reflexivity|]. split; [reflexivity|].
      split; [| reflexivity]. intros _. now exists d.
  - rewrite (route_get_json_raises flow_client request e env w Hjson).
    eexists; eexists. split; [reflexivity|]. split; [reflexivity|].
    split; [discriminate | intros (d' & [=] & _)].
Qed.


(** X10: [_process_flow_response] never raises.  For every response it
    returns an envelope, reads the clock once and sends nothing; the
    envelope has a [data] field exactly when the stream is present and
    ended without an error, so the outputs collected before a stream error
    are dropped, and the error is what is returned and logged. *)
Theorem X10_normaliser_never_raises (response : FlowResponse) (env : Env)
    (w : World) :
  exists result w',
    BedrockFlowClient._process_flow_response response env w = (Ok result, w')
    /\ sent w' = sent w
    /\ clock_reads w' = S (clock_reads w)
    /\ (has_key "data" result = true <->
        exists evs, responseStream response = Some (mkEventStream evs None))
    /\ (forall evs e,
           responseStream response = Some (mkEventStream evs (Some e)) ->
           result = JDict [("success", JBool false);
                           ("error", JStr (str e));
                           ("timestamp", JStr (isoformat_now env (clock_reads w)))]
           /\ log w' = (log w ++ [(ERROR, ("Error processing flow response: "
                                           ++ str e)%string)])%list).
Proof.
  destruct response as [[[evs [e |]] |]].
  - rewrite (process_fault (mkFlowResponse (Some (mkEventStream evs (Some e))))
               evs e env w eq_refl).
    eexists; eexists. split; [reflexivity|].
    split; [reflexivity|]. split; [reflexivity|]. split.
    + split; [discriminate | intros (evs' & [=])].
    + intros evs' e' [= <- <-]. now split.
  - rewrite (process_stream (mkFlowResponse (Some (mkEventStream evs None)))
               evs env w eq_refl).
    eexists; eexists. split; [reflexivity|].
    split; [reflexivity|]. split; [reflexivity|]. split.
    + split; [intros _; now exists evs | reflexivity].
    + intros evs' e' [=].
  - rewrite (process_absent (mkFlowResponse None) env w eq_refl).
    eexists; eexists. split; [reflexivity|].
    split; [reflexivity|]. split; [reflexivity|]. split.
    + split; [discriminate | intros (evs' & [=])].
    + intros evs' e' [=].
Qed.

Lemma X10_normaliser_never_raises_witness :
  exists result w',
    BedrockFlowClient._process_flow_response broken_stream
      (service_with broken_stream) start = (Ok result, w')
    /\ result = JDict [("success", JBool false);
                       ("error", JStr "An error occurred (internalServerException)");
                       ("timestamp", JStr (sample_clock 0))]
    /\ has_key "data" result = false.
Proof.
  destruct (X10_normaliser_never_raises broken_stream
              (service_with broken_stream) start)
    as (result & w' & Hrun & _ & _ & _ & Hfault).
  exists result, w'. split; [exact Hrun|].
  destruct (Hfault [output_event "first"] stream_error eq_refl) as [Hresult _].
  split; [exact Hresult | now rewrite Hresult].
Defined.
